(** * M-Pesa invoice payments: the reconciliation core

    A shallow embedding of the payment logic of the backend:

    - [controllers/payment.controller.js]: [initiatePayment],
      [checkPaymentStatus] (the polling path) and [mpesaCallback]
      (the callback ingress);
    - [services/mpesa.service.js]: [handleCallback] (the callback
      transition) and the phone formatting of [initiateSTKPush];
    - [controllers/invoice.controller.js]: [updateInvoice], the other
      handler that writes the status of an invoice;
    - [models/Payment.js], [models/Invoice.js]: the two tables;
    - [middleware/errorHandler.js]: the error classes and their HTTP
      status codes.

    The database is an explicit [Store] threaded through every handler.
    The payment provider is outside the program: the answer of each
    outbound call is an argument of the handler that makes the call.
    Each handler runs from start to end on the store it is given; the
    interleaving of concurrent requests is not modelled.  The [created_at]
    and [updated_at] columns that Sequelize maintains by itself are not
    modelled either: no handler reads or writes them.  The arithmetic on
    amounts is done by the database and the JavaScript runtime, on doubles:
    it is a parameter of the handlers ([Arithmetic]). *)

From Stdlib Require Import ZArith String Ascii List Lia DecimalString DecimalZ.
From stdpp Require Import gmap strings list fin_maps.

Local Open Scope Z_scope.
Local Open Scope string_scope.

(** ** JavaScript values

    The payloads of the provider are JSON.  The handlers compare them with
    [===], test them for truthiness with [||] and [?:], and store them.
    Numbers are the integers the provider sends (result codes, amounts,
    phone numbers, [yyyymmddhhmmss] dates). *)

Inductive jsval : Type :=
  | JUndef
  | JNull
  | JNum (n : Z)
  | JStr (s : string)
  | JDate (src : jsval).

(** [a === b] on primitives; two [Date] objects are never the same object. *)
Definition strict_eq (a b : jsval) : bool :=
  match a, b with
  | JUndef, JUndef => true
  | JNull, JNull => true
  | JNum n, JNum m => Z.eqb n m
  | JStr s, JStr t => String.eqb s t
  | _, _ => false
  end.

Definition truthy (v : jsval) : bool :=
  match v with
  | JUndef | JNull => false
  | JNum n => negb (Z.eqb n 0)
  | JStr s => negb (String.eqb s EmptyString)
  | JDate _ => true
  end.

(** [v || d] *)
Definition js_or (v d : jsval) : jsval := if truthy v then v else d.

(** [String(n)] for an integer [n]. *)
Definition js_string_of_Z (n : Z) : string := NilZero.string_of_int (Z.to_int n).

(** ** String methods used by the phone formatting *)

(** [s.startsWith(p)] *)
Definition startsWith (s p : string) : bool := String.prefix p s.

(** [s.substring(1)] *)
Definition substring1 (s : string) : string :=
  match s with
  | EmptyString => EmptyString
  | String _ rest => rest
  end.

(** White space as [String.prototype.trim] sees it in the ASCII range. *)
Definition is_space (c : ascii) : bool :=
  let n := nat_of_ascii c in
  orb (Nat.eqb n 32) (andb (Nat.leb 9 n) (Nat.leb n 13)).

Fixpoint trimStart (s : string) : string :=
  match s with
  | EmptyString => EmptyString
  | String c rest => if is_space c then trimStart rest else s
  end.

Fixpoint trimEnd (s : string) : string :=
  match s with
  | EmptyString => EmptyString
  | String c rest =>
      match trimEnd rest with
      | EmptyString => if is_space c then EmptyString else String c EmptyString
      | rest' => String c rest'
      end
  end.

(** [s.trim()] *)
Definition trim (s : string) : string := trimEnd (trimStart s).

(** ** Provider payloads *)

(** One [{Name, Value}] entry of [CallbackMetadata.Item]. *)
Module Item.
Record t : Type := mk { Name : string; Value : jsval }.
End Item.

(** [callbackData.Body.stkCallback].  [CallbackMetadata] is [None] when the
    callback carries no [CallbackMetadata.Item] list. *)
Module StkCallback.
Record t : Type := mk {
  CheckoutRequestID : string;
  ResultCode : jsval;
  ResultDesc : jsval;
  CallbackMetadata : option (list Item.t)
}.
End StkCallback.

(** The body posted to the callback endpoint.  [None] is a body in which
    [callbackData.Body.stkCallback] cannot be read: the property access
    raises a [TypeError]. *)
Definition callbackData : Type := option StkCallback.t.

(** [response.data] of the status query. *)
Module QueryResponse.
Record t : Type := mk {
  ResultCode : jsval;
  ResultDesc : jsval;
  MpesaReceiptNumber : jsval;
  TransactionDate : jsval
}.
End QueryResponse.

(** [response.data] of the push request. *)
Module PushResponse.
Record t : Type := mk {
  CheckoutRequestID : string;
  MerchantRequestID : string
}.
End PushResponse.

(** The [error] of a failed push, as [initiateSTKPush] returns it:
    [error.response?.data || error.message].  It is the body of the
    provider's error answer, an object of scalar properties (the provider
    sends [requestId], [errorCode] and [errorMessage]), or a string: the
    message of the exception when there is no answer (no connection, a
    timeout, no access token). *)
Module PushError.
Inductive t : Type :=
  | provider_answer (properties : list (string * jsval))
  | exception_message (message : string).

(** [error[name]] for the names that the controller reads: the property of
    the answer when it has one of that name; a string has none of them. *)
Definition get (error : t) (name : string) : jsval :=
  match error with
  | provider_answer properties =>
      match find (λ property, String.eqb (fst property) name) properties with
      | Some property => snd property
      | None => JUndef
      end
  | exception_message _ => JUndef
  end.
End PushError.

(** [v?.name] for a scalar [v] and one of the names [data], [errorCode],
    [errorMessage]: [undefined] and [null] stop the chain, and no number,
    string or date has a property of these names. *)
Definition optional_get (v : jsval) (name : string) : jsval := JUndef.

(** The [{success, data}] or [{success, error}] envelope that the gateway
    functions of the service return; they never throw. *)
Inductive GatewayResult (D E : Type) : Type :=
  | GwSuccess (data : D)
  | GwFailure (error : E).
Arguments GwSuccess {D E} data.
Arguments GwFailure {D E} error.

(** ** The tables *)

Module PaymentStatus.
Inductive t : Type := pending | processing | completed | failed | cancelled.
End PaymentStatus.

#[global] Instance PaymentStatus_eq_dec : EqDecision PaymentStatus.t.
Proof. solve_decision. Defined.

Module InvoiceStatus.
Inductive t : Type := draft | sent | paid | overdue | cancelled.
End InvoiceStatus.

#[global] Instance InvoiceStatus_eq_dec : EqDecision InvoiceStatus.t.
Proof. solve_decision. Defined.

(** [models/Invoice.js].  The primary key [id] is the key of the invoice
    table in the [Store]; the customer columns, which the payment code
    never touches, are left out. *)
Module Invoice.
Record t : Type := mk {
  invoice_number : string;
  amount : Z;
  status : InvoiceStatus.t;
  public_id : string;
  user_id : string
}.

(** [invoice.update({ status })] *)
Definition set_status (i : t) (s : InvoiceStatus.t) : t :=
  mk (invoice_number i) (amount i) s (public_id i) (user_id i).
End Invoice.

(** [models/Payment.js].  Every column holds the value as it was written,
    whatever its type: the default SQLite database does not enforce the
    declared column types. *)
Module Payment.
Record t : Type := mk {
  id : string;
  amount : jsval;
  transaction_id : jsval;
  mpesa_receipt : jsval;
  phone_number : jsval;
  account_reference : jsval;
  transaction_time : jsval;
  status : PaymentStatus.t;
  checkout_request_id : option string;
  merchant_request_id : option string;
  result_code : jsval;
  result_desc : jsval;
  callback_metadata : option StkCallback.t;
  invoice_id : string;
  user_id : string
}.

(** One [key: value] entry of the object given to [payment.update]. *)
Inductive assignment : Type :=
  | set_status (v : PaymentStatus.t)
  | set_mpesa_receipt (v : jsval)
  | set_amount (v : jsval)
  | set_phone_number (v : jsval)
  | set_transaction_time (v : jsval)
  | set_result_code (v : jsval)
  | set_result_desc (v : jsval)
  | set_callback_metadata (v : StkCallback.t)
  | set_checkout_request_id (v : string)
  | set_merchant_request_id (v : string).

Definition assign (p : t) (a : assignment) : t :=
  match a with
  | set_status v =>
      mk (id p) (amount p) (transaction_id p) (mpesa_receipt p) (phone_number p)
         (account_reference p) (transaction_time p) v (checkout_request_id p)
         (merchant_request_id p) (result_code p) (result_desc p)
         (callback_metadata p) (invoice_id p) (user_id p)
  | set_mpesa_receipt v =>
      mk (id p) (amount p) (transaction_id p) v (phone_number p)
         (account_reference p) (transaction_time p) (status p) (checkout_request_id p)
         (merchant_request_id p) (result_code p) (result_desc p)
         (callback_metadata p) (invoice_id p) (user_id p)
  | set_amount v =>
      mk (id p) v (transaction_id p) (mpesa_receipt p) (phone_number p)
         (account_reference p) (transaction_time p) (status p) (checkout_request_id p)
         (merchant_request_id p) (result_code p) (result_desc p)
         (callback_metadata p) (invoice_id p) (user_id p)
  | set_phone_number v =>
      mk (id p) (amount p) (transaction_id p) (mpesa_receipt p) v
         (account_reference p) (transaction_time p) (status p) (checkout_request_id p)
         (merchant_request_id p) (result_code p) (result_desc p)
         (callback_metadata p) (invoice_id p) (user_id p)
  | set_transaction_time v =>
      mk (id p) (amount p) (transaction_id p) (mpesa_receipt p) (phone_number p)
         (account_reference p) v (status p) (checkout_request_id p)
         (merchant_request_id p) (result_code p) (result_desc p)
         (callback_metadata p) (invoice_id p) (user_id p)
  | set_result_code v =>
      mk (id p) (amount p) (transaction_id p) (mpesa_receipt p) (phone_number p)
         (account_reference p) (transaction_time p) (status p) (checkout_request_id p)
         (merchant_request_id p) v (result_desc p)
         (callback_metadata p) (invoice_id p) (user_id p)
  | set_result_desc v =>
      mk (id p) (amount p) (transaction_id p) (mpesa_receipt p) (phone_number p)
         (account_reference p) (transaction_time p) (status p) (checkout_request_id p)
         (merchant_request_id p) (result_code p) v
         (callback_metadata p) (invoice_id p) (user_id p)
  | set_callback_metadata v =>
      mk (id p) (amount p) (transaction_id p) (mpesa_receipt p) (phone_number p)
         (account_reference p) (transaction_time p) (status p) (checkout_request_id p)
         (merchant_request_id p) (result_code p) (result_desc p)
         (Some v) (invoice_id p) (user_id p)
  | set_checkout_request_id v =>
      mk (id p) (amount p) (transaction_id p) (mpesa_receipt p) (phone_number p)
         (account_reference p) (transaction_time p) (status p) (Some v)
         (merchant_request_id p) (result_code p) (result_desc p)
         (callback_metadata p) (invoice_id p) (user_id p)
  | set_merchant_request_id v =>
      mk (id p) (amount p) (transaction_id p) (mpesa_receipt p) (phone_number p)
         (account_reference p) (transaction_time p) (status p) (checkout_request_id p)
         (Some v) (result_code p) (result_desc p)
         (callback_metadata p) (invoice_id p) (user_id p)
  end.

(** The row after [payment.update({ ... })]: the entries are written in
    order, every other column keeps its value. *)
Definition updated (p : t) (values : list assignment) : t :=
  fold_left assign values p.

(** The row that [Payment.create({amount, phone_number, status, invoice_id,
    user_id})] inserts; [new_id] is the generated UUID, every column
    that is not given is [NULL]. *)
Definition created (new_id : string) (amount : jsval) (phone_number : string)
    (status : PaymentStatus.t) (invoice_id user_id : string) : t :=
  mk new_id amount JNull JNull (JStr phone_number) JNull JNull status
     None None JNull JNull None invoice_id user_id.
End Payment.

(** The database: the payment rows in insertion order and the invoice
    rows by primary key. *)
Record Store : Type := mkStore {
  payments : list Payment.t;
  invoices : gmap string Invoice.t
}.

(** [Payment.findOne({ where: { checkout_request_id } })]: the first
    matching row, with its position in the table. *)
Definition Payment_findOne (st : Store) (checkout_request_id : string)
    : option (nat * Payment.t) :=
  list_find (λ p, Payment.checkout_request_id p = Some checkout_request_id)
            (payments st).

(** The rows that [{ where: { invoice_id, status: 'completed' } }] selects. *)
Definition Payment_completed (st : Store) (invoice_id : string) : list Payment.t :=
  filter (λ p, Payment.invoice_id p = invoice_id
               ∧ Payment.status p = PaymentStatus.completed)
         (payments st).

(** The arithmetic on amounts.  [sum_reaches amounts due] is the outcome of
    [totalPaid >= invoice.amount], where [totalPaid] is what
    [Payment.sum('amount', ...)] returns for rows that hold [amounts] in the
    column [amount], and [due] is [invoice.amount].  The database adds
    doubles and the runtime compares doubles; nothing is assumed here
    about either. *)
Class Arithmetic : Type := {
  sum_reaches : list jsval → Z → bool
}.

(** [Payment.sum('amount', { where: { invoice_id, status: 'completed' } })
    >= due] *)
Definition Payment_sum_reaches `{Arithmetic} (st : Store) (invoice_id : string)
    (due : Z) : bool :=
  sum_reaches (Payment.amount <$> Payment_completed st invoice_id) due.

(** The store after [payment.update(values)] on the row at position [i]. *)
Definition Payment_update (st : Store) (i : nat) (p : Payment.t)
    (values : list Payment.assignment) : Store :=
  mkStore (<[i := Payment.updated p values]> (payments st)) (invoices st).

(** The store after [invoice.update({ status })]. *)
Definition Invoice_update_status (st : Store) (invoice_id : string)
    (invoice : Invoice.t) (s : InvoiceStatus.t) : Store :=
  mkStore (payments st) (<[invoice_id := Invoice.set_status invoice s]> (invoices st)).

(** [Invoice.findOne({ where: { id, user_id } })] *)
Definition Invoice_findOne (st : Store) (id user_id : string) : option Invoice.t :=
  match invoices st !! id with
  | Some invoice =>
      if decide (Invoice.user_id invoice = user_id) then Some invoice else None
  | None => None
  end.

(** ** Errors and responses ([middleware/errorHandler.js]) *)

(** The errors the payment handlers raise: the [ApiError] subclasses, the
    unique-constraint error of Sequelize, and the [TypeError] of a property
    read on [null] or [undefined]. *)
Inductive Error : Type :=
  | NotFoundError (resource : string)
  | BadRequestError (message : string)
  | UnauthorizedError (message : string)
  | ForbiddenError (message : string)
  | ConflictError (message : string)
  | SequelizeUniqueConstraintError
  | TypeError.

(** [errorHandler]: the status of the response it sends for [err]. *)
Definition errorHandler (err : Error) : Z :=
  match err with
  | SequelizeUniqueConstraintError => 400
  | NotFoundError _ => 404
  | BadRequestError _ => 400
  | UnauthorizedError _ => 401
  | ForbiddenError _ => 403
  | ConflictError _ => 409
  | TypeError => 500
  end.

(** How an Express handler ends: [res.json(body)], or [next(error)]. *)
Inductive Reply (A : Type) : Type :=
  | Json (body : A)
  | Next (error : Error).
Arguments Json {A} body.
Arguments Next {A} error.

(** The HTTP status the client sees: 200 for [res.json], the status chosen
    by [errorHandler] after [next(error)]. *)
Definition http_status {A : Type} (r : Reply A) : Z :=
  match r with
  | Json _ => 200
  | Next err => errorHandler err
  end.

(** ** The callback transition ([handleCallback], mpesa.service.js) *)

(** The [{ success, error }] object that [handleCallback] returns. *)
Record HandlerResult : Type := mkHandlerResult {
  success : bool;
  error : option string
}.

(** [metadata.find(item => item.Name === name)?.Value] *)
Definition find_Value (name : string) (metadata : list Item.t) : jsval :=
  match List.find (fun item => String.eqb (Item.Name item) name) metadata with
  | Some item => Item.Value item
  | None => JUndef
  end.

Definition handleCallback `{Arithmetic} (st : Store) (callbackData : callbackData)
    : Store * HandlerResult :=
  match callbackData with
  | None => (st, mkHandlerResult false (Some "TypeError"))
  | Some callback =>
    match Payment_findOne st (StkCallback.CheckoutRequestID callback) with
    | None => (st, mkHandlerResult false (Some "Payment not found"))
    | Some (i, payment) =>
      let resultCode := StkCallback.ResultCode callback in
      let resultDesc := StkCallback.ResultDesc callback in
      if strict_eq resultCode (JNum 0) then
        let metadata := default [] (StkCallback.CallbackMetadata callback) in
        let receipt :=
          js_or (find_Value "MpesaReceiptNumber" metadata) (JStr EmptyString) in
        let amount := js_or (find_Value "Amount" metadata) (JNum 0) in
        let phone :=
          js_or (find_Value "PhoneNumber" metadata) (JStr EmptyString) in
        let transactionDate :=
          js_or (find_Value "TransactionDate" metadata) (JStr EmptyString) in
        let st1 := Payment_update st i payment
          [ Payment.set_status PaymentStatus.completed;
            Payment.set_mpesa_receipt receipt;
            Payment.set_amount amount;
            Payment.set_phone_number phone;
            Payment.set_transaction_time
              (if truthy transactionDate then JDate transactionDate else JNull);
            Payment.set_result_code resultCode;
            Payment.set_result_desc resultDesc;
            Payment.set_callback_metadata callback ] in
        (* payment.getInvoice() *)
        match invoices st1 !! Payment.invoice_id payment with
        | None => (st1, mkHandlerResult false (Some "TypeError"))
        | Some invoice =>
          (* totalPaid >= invoice.amount *)
          if Payment_sum_reaches st1 (Payment.invoice_id payment)
               (Invoice.amount invoice)
          then
            (Invoice_update_status st1 (Payment.invoice_id payment) invoice
               InvoiceStatus.paid,
             mkHandlerResult true None)
          else (st1, mkHandlerResult true None)
        end
      else
        (Payment_update st i payment
           [ Payment.set_status PaymentStatus.failed;
             Payment.set_result_code resultCode;
             Payment.set_result_desc resultDesc;
             Payment.set_callback_metadata callback ],
         mkHandlerResult true None)
    end
  end.

(** ** The callback ingress ([mpesaCallback], payment.controller.js) *)

(** How the awaited call of the service ends. *)
Inductive Completion (A : Type) : Type :=
  | Returned (value : A)
  | Thrown (error : Error).
Arguments Returned {A} value.
Arguments Thrown {A} error.

(** The response of the callback endpoint: [res.json] and
    [res.status(200).json] both answer with status 200. *)
Record CallbackResponse : Type := mkCallbackResponse {
  statusCode : Z;
  ResultCode : Z;
  ResultDesc : string
}.

(** The body of [mpesaCallback] over any implementation [service] of
    [mpesaService.handleCallback]: the value the service returns is
    dropped, the [catch] branch answers only when the call throws. *)
Definition mpesaCallback_over {S : Type}
    (service : S -> callbackData -> S * Completion HandlerResult)
    (st : S) (body : callbackData) : S * CallbackResponse :=
  match service st body with
  | (st', Returned _) =>
      (st', mkCallbackResponse 200 0 "Callback processed successfully")
  | (st', Thrown _) =>
      (st', mkCallbackResponse 200 1 "Error processing callback")
  end.

(** [handleCallback] wraps its whole body in [try]/[catch] and returns from
    both: awaited, it always completes with a value. *)
Definition handleCallback_awaited `{Arithmetic} (st : Store) (body : callbackData)
    : Store * Completion HandlerResult :=
  let (st', result) := handleCallback st body in (st', Returned result).

Definition mpesaCallback `{Arithmetic} (st : Store) (body : callbackData)
    : Store * CallbackResponse :=
  mpesaCallback_over handleCallback_awaited st body.

(** ** The polling path ([checkPaymentStatus], payment.controller.js) *)

(** The body of the JSON answer of [checkPaymentStatus]. *)
Record StatusReply : Type := mkStatusReply {
  message : option string;
  status : PaymentStatus.t;
  payment : option Payment.t
}.

(** [response] is what [mpesaService.checkPaymentStatus(checkoutRequestId)]
    answers; the handler asks for it only when the stored payment is not
    completed. *)
Definition checkPaymentStatus `{Arithmetic} (st : Store) (checkoutRequestId : string)
    (response : GatewayResult QueryResponse.t jsval)
    : Store * Reply StatusReply :=
  match Payment_findOne st checkoutRequestId with
  | None => (st, Next (NotFoundError "Payment not found"))
  | Some (i, payment) =>
    if decide (Payment.status payment = PaymentStatus.completed) then
      (st, Json (mkStatusReply None PaymentStatus.completed (Some payment)))
    else
      match response with
      | GwFailure _ => (st, Next (BadRequestError "Failed to check payment status"))
      | GwSuccess data =>
        let resultCode := QueryResponse.ResultCode data in
        if strict_eq resultCode (JStr "0") then
          let st1 := Payment_update st i payment
            [ Payment.set_status PaymentStatus.completed;
              Payment.set_mpesa_receipt (QueryResponse.MpesaReceiptNumber data);
              Payment.set_transaction_time (QueryResponse.TransactionDate data);
              Payment.set_result_code resultCode;
              Payment.set_result_desc (QueryResponse.ResultDesc data) ] in
          (* payment.invoice, loaded with the payment *)
          match invoices st !! Payment.invoice_id payment with
          | None => (st1, Next TypeError)
          | Some invoice =>
            let st2 :=
              (* totalPaid >= payment.invoice.amount *)
              if Payment_sum_reaches st1 (Payment.invoice_id payment)
                   (Invoice.amount invoice)
              then
                Invoice_update_status st1 (Payment.invoice_id payment) invoice
                  InvoiceStatus.paid
              else st1 in
            (st2, Json (mkStatusReply (Some "Payment completed successfully")
                          PaymentStatus.completed (payments st2 !! i)))
          end
        else if negb (strict_eq resultCode (JStr "1032")) then
          let st1 := Payment_update st i payment
            [ Payment.set_status PaymentStatus.failed;
              Payment.set_result_code resultCode;
              Payment.set_result_desc (QueryResponse.ResultDesc data) ] in
          (st1, Json (mkStatusReply (Some "Payment failed")
                        PaymentStatus.failed (payments st1 !! i)))
        else
          (st, Json (mkStatusReply (Some "Payment status checked successfully")
                       (Payment.status payment) (payments st !! i)))
      end
  end.

(** ** Initiation ([initiatePayment], payment.controller.js) *)

(** The phone formatting of [initiatePayment]. *)
Definition initiatePayment_formattedPhone (phoneNumber : string) : string :=
  let formattedPhone := trim phoneNumber in
  if startsWith formattedPhone "0" then
    "254" ++ substring1 formattedPhone
  else if negb (startsWith formattedPhone "254") then
    "254" ++ formattedPhone
  else formattedPhone.

(** The phone formatting of [initiateSTKPush] (mpesa.service.js). *)
Definition initiateSTKPush_formattedPhone (phoneNumber : string) : string :=
  if startsWith phoneNumber "0" then
    "254" ++ substring1 phoneNumber
  else if startsWith phoneNumber "+" then
    substring1 phoneNumber
  else phoneNumber.

(** [PartyA] and [PhoneNumber] of the push request that [initiatePayment]
    causes for the [phoneNumber] of its request body: the controller formats
    the number and hands it to [initiateSTKPush], which formats it again. *)
Definition push_request_phone (phoneNumber : string) : string :=
  initiateSTKPush_formattedPhone (initiatePayment_formattedPhone phoneNumber).

(** The body of the JSON answer of [initiatePayment]. *)
Record InitiateReply : Type := mkInitiateReply {
  created_payment : Payment.t;
  mpesaResponse : PushResponse.t
}.

(** [userId] is [req.user.id]; [new_id] is the UUID generated for the new
    row; [response] is what [mpesaService.initiateSTKPush] answers. *)
Definition initiatePayment (st : Store) (userId invoiceId phoneNumber : string)
    (new_id : string) (response : GatewayResult PushResponse.t PushError.t)
    : Store * Reply InitiateReply :=
  match Invoice_findOne st invoiceId userId with
  | None => (st, Next (NotFoundError "Invoice not found"))
  | Some invoice =>
    if decide (Invoice.status invoice = InvoiceStatus.paid) then
      (st, Next (BadRequestError "This invoice has already been paid"))
    else
      let formattedPhone := initiatePayment_formattedPhone phoneNumber in
      let payment :=
        Payment.created new_id (JNum (Invoice.amount invoice)) formattedPhone
          PaymentStatus.pending invoiceId userId in
      let i := length (payments st) in
      let st1 := mkStore (payments st ++ [payment]) (invoices st) in
      match response with
      | GwFailure error =>
          (Payment_update st1 i payment
             [ Payment.set_status PaymentStatus.failed;
               Payment.set_result_code
                 (js_or (optional_get
                           (optional_get (PushError.get error "response") "data")
                           "errorCode")
                        (JStr "UNKNOWN_ERROR"));
               Payment.set_result_desc
                 (js_or (optional_get
                           (optional_get (PushError.get error "response") "data")
                           "errorMessage")
                        (JStr "Failed to initiate payment")) ],
           Next (BadRequestError "Failed to initiate payment"))
      | GwSuccess data =>
          (* checkout_request_id is declared unique *)
          match Payment_findOne st1 (PushResponse.CheckoutRequestID data) with
          | Some _ => (st1, Next SequelizeUniqueConstraintError)
          | None =>
            let values :=
              [ Payment.set_checkout_request_id (PushResponse.CheckoutRequestID data);
                Payment.set_merchant_request_id (PushResponse.MerchantRequestID data) ] in
            (Payment_update st1 i payment values,
             Json (mkInitiateReply (Payment.updated payment values) data))
          end
      end
  end.

(** ** Invoice update ([updateInvoice], invoice.controller.js) *)


(** ** Sequences of requests *)





(** ** Scenario data

    One invoice of 500 owned by [user-1], and the stores the handlers
    produce from it.  All amounts in the scenarios are whole numbers, on
    which the sum of the database and the comparison of the runtime are
    exact: the scenarios are run with that arithmetic. *)

(** The contribution of a stored amount to the sum: a number counts as it
    is; [null] and a text that is no number count as 0, as they do in the
    sum of the database. *)
Definition whole_amount (v : jsval) : Z :=
  match v with
  | JNum n => n
  | _ => 0
  end.

#[global] Instance whole_numbers : Arithmetic := {|
  sum_reaches amounts due := Z.geb (foldr Z.add 0 (whole_amount <$> amounts)) due
|}.

Definition invoice_500 : Invoice.t :=
  Invoice.mk "INV-0001" 500 InvoiceStatus.draft "pub-1" "user-1".

Definition store_with_invoice : Store :=
  mkStore [] {[ "inv-1" := invoice_500 ]}.

Definition push_accepted : GatewayResult PushResponse.t PushError.t :=
  GwSuccess (PushResponse.mk "ws_1" "mr_1").


(** The attempt [pay-1] is pending with checkout reference [ws_1]. *)
Definition store_pending : Store :=
  fst (initiatePayment store_with_invoice "user-1" "inv-1" "0712345678" "pay-1"
         push_accepted).

(** A callback for [ws_1] with result code [n] and the metadata items. *)
Definition callback_ws_1 (n : Z) (items : option (list Item.t)) : StkCallback.t :=
  StkCallback.mk "ws_1" (JNum n) (JStr "result") items.

(** A query response with result code [code]. *)
Definition query_result (code : string) : GatewayResult QueryResponse.t jsval :=
  GwSuccess (QueryResponse.mk (JStr code) (JStr "result") JUndef JUndef).

Definition paid_in_full : option (list Item.t) :=
  Some [ Item.mk "Amount" (JNum 500);
         Item.mk "MpesaReceiptNumber" (JStr "QWE123");
         Item.mk "PhoneNumber" (JNum 254712345678) ].

(** [pay-1] completed by a success callback: the invoice is paid. *)
Definition store_completed : Store :=
  fst (handleCallback store_pending (Some (callback_ws_1 0 paid_in_full))).

(** [pay-1] failed by a poll that reports result code 1. *)
Definition store_failed : Store :=
  fst (checkPaymentStatus store_pending "ws_1" (query_result "1")).

(** The [Amount] that a success callback writes to the payment. *)
Definition callback_Amount (callback : StkCallback.t) : jsval :=
  js_or (find_Value "Amount" (default [] (StkCallback.CallbackMetadata callback)))
        (JNum 0).

(** The columns of a payment that no reconciliation writes. *)
Definition identity_columns (p : Payment.t)
    : string * option string * option string * string * string :=
  (Payment.id p, Payment.checkout_request_id p, Payment.merchant_request_id p,
   Payment.invoice_id p, Payment.user_id p).

(** The objects given to [payment.update] by the two reconciliation paths,
    named for the statements below. *)

Definition completed_by_callback (callback : StkCallback.t)
    : list Payment.assignment :=
  let metadata := default [] (StkCallback.CallbackMetadata callback) in
  let transactionDate :=
    js_or (find_Value "TransactionDate" metadata) (JStr EmptyString) in
  [ Payment.set_status PaymentStatus.completed;
    Payment.set_mpesa_receipt
      (js_or (find_Value "MpesaReceiptNumber" metadata) (JStr EmptyString));
    Payment.set_amount (callback_Amount callback);
    Payment.set_phone_number
      (js_or (find_Value "PhoneNumber" metadata) (JStr EmptyString));
    Payment.set_transaction_time
      (if truthy transactionDate then JDate transactionDate else JNull);
    Payment.set_result_code (StkCallback.ResultCode callback);
    Payment.set_result_desc (StkCallback.ResultDesc callback);
    Payment.set_callback_metadata callback ].

Definition failed_by_callback (callback : StkCallback.t) : list Payment.assignment :=
  [ Payment.set_status PaymentStatus.failed;
    Payment.set_result_code (StkCallback.ResultCode callback);
    Payment.set_result_desc (StkCallback.ResultDesc callback);
    Payment.set_callback_metadata callback ].

Definition completed_by_poll (data : QueryResponse.t) : list Payment.assignment :=
  [ Payment.set_status PaymentStatus.completed;
    Payment.set_mpesa_receipt (QueryResponse.MpesaReceiptNumber data);
    Payment.set_transaction_time (QueryResponse.TransactionDate data);
    Payment.set_result_code (QueryResponse.ResultCode data);
    Payment.set_result_desc (QueryResponse.ResultDesc data) ].

Definition failed_by_poll (data : QueryResponse.t) : list Payment.assignment :=
  [ Payment.set_status PaymentStatus.failed;
    Payment.set_result_code (QueryResponse.ResultCode data);
    Payment.set_result_desc (QueryResponse.ResultDesc data) ].

(** The invoice step that follows a completed payment in both paths: the
    invoice becomes paid when the test [totalPaid >= invoice.amount]
    succeeds. *)
Definition settle `{Arithmetic} (st : Store) (invoice_id : string)
    (invoice : Invoice.t) : Store :=
  if Payment_sum_reaches st invoice_id (Invoice.amount invoice) then
    Invoice_update_status st invoice_id invoice InvoiceStatus.paid
  else st.






(** The invoice [inv-1] already paid. *)
Definition store_paid : Store :=
  mkStore [] {[ "inv-1" := Invoice.set_status invoice_500 InvoiceStatus.paid ]}.

(** * Properties *)

(** ** Values and strings *)

Lemma js_string_of_Z_inj (n m : Z) : js_string_of_Z n = js_string_of_Z m → n = m.
Proof.
  intros H. apply DecimalZ.to_int_inj.
  assert (Hp : ∀ z, NilZero.int_of_string (js_string_of_Z z) = Some (Z.to_int z)).
  { intros z. apply NilZero.isi; destruct z; simpl; try discriminate;
      intros [= E]; revert E; apply DecimalPos.Unsigned.to_uint_nonnil. }
  pose proof (Hp n) as Hn. rewrite H, Hp in Hn. congruence.
Qed.

Lemma strict_eq_rendered (n m : Z) :
  strict_eq (JStr (js_string_of_Z n)) (JStr (js_string_of_Z m)) = Z.eqb n m.
Proof.
  simpl. destruct (String.eqb_spec (js_string_of_Z n) (js_string_of_Z m)) as [E|E].
  - apply js_string_of_Z_inj in E. subst. symmetry. apply Z.eqb_refl.
  - symmetry. apply Z.eqb_neq. intros ->. by apply E.
Qed.

(** ** Rows and tables *)

Lemma findOne_after_update (st : Store) (cid : string) (i : nat) (p p' : Payment.t) :
  Payment_findOne st cid = Some (i, p) →
  Payment.checkout_request_id p' = Payment.checkout_request_id p →
  Payment_findOne (mkStore (<[i := p']> (payments st)) (invoices st)) cid = Some (i, p').
Proof.
  unfold Payment_findOne. simpl. intros Hfind Hcid.
  apply list_find_Some in Hfind as (Hi & HP & Hleast).
  apply list_find_insert_Some. right; left.
  split_and!; [done | done | by eapply lookup_lt_Some | congruence | done].
Qed.

Lemma fmap_insert_same {A B : Type} (f : A → B) (l : list A) (i : nat) (x y : A) :
  l !! i = Some x → f y = f x → f <$> <[i := y]> l = f <$> l.
Proof.
  intros Hi Hf. rewrite list_fmap_insert, Hf.
  apply list_insert_id. by rewrite list_lookup_fmap, Hi.
Qed.

Lemma findOne_lookup (st : Store) (cid : string) (i : nat) (p : Payment.t) :
  Payment_findOne st cid = Some (i, p) → payments st !! i = Some p.
Proof. unfold Payment_findOne. by intros (? & _)%list_find_Some. Qed.

Lemma strict_eq_JNum (v : jsval) (n : Z) : strict_eq v (JNum n) = true ↔ v = JNum n.
Proof.
  destruct v; simpl; try (split; [discriminate | congruence]).
  rewrite Z.eqb_eq. split; congruence.
Qed.

Lemma strict_eq_JStr (v : jsval) (s : string) : strict_eq v (JStr s) = true ↔ v = JStr s.
Proof.
  destruct v; simpl; try (split; [discriminate | congruence]).
  rewrite String.eqb_eq. split; congruence.
Qed.

(** ** The branches of the callback transition *)

Section transitions.
Context `{arithmetic : !Arithmetic}.

Lemma handleCallback_unmatched (st : Store) (callback : StkCallback.t) :
  Payment_findOne st (StkCallback.CheckoutRequestID callback) = None →
  handleCallback st (Some callback)
  = (st, mkHandlerResult false (Some "Payment not found")).
Proof. intros Hfind. unfold handleCallback. by rewrite Hfind. Qed.

Lemma handleCallback_completed (st : Store) (callback : StkCallback.t)
    (i : nat) (p : Payment.t) :
  Payment_findOne st (StkCallback.CheckoutRequestID callback) = Some (i, p) →
  strict_eq (StkCallback.ResultCode callback) (JNum 0) = true →
  handleCallback st (Some callback)
  = let st1 := Payment_update st i p (completed_by_callback callback) in
    match invoices st !! Payment.invoice_id p with
    | None => (st1, mkHandlerResult false (Some "TypeError"))
    | Some invoice =>
        (settle st1 (Payment.invoice_id p) invoice,
         mkHandlerResult true None)
    end.
Proof.
  intros Hfind Hcode. unfold handleCallback.
  rewrite Hfind, Hcode. cbv zeta. unfold settle.
  change (invoices (Payment_update st i p _)) with (invoices st).
  destruct (invoices st !! _); [|done].
  by destruct (Payment_sum_reaches _ _ _).
Qed.

Lemma handleCallback_failed (st : Store) (callback : StkCallback.t)
    (i : nat) (p : Payment.t) :
  Payment_findOne st (StkCallback.CheckoutRequestID callback) = Some (i, p) →
  strict_eq (StkCallback.ResultCode callback) (JNum 0) = false →
  handleCallback st (Some callback)
  = (Payment_update st i p (failed_by_callback callback), mkHandlerResult true None).
Proof. intros Hfind Hcode. unfold handleCallback. by rewrite Hfind, Hcode. Qed.

Lemma settle_payments (st : Store) (id : string) (invoice : Invoice.t) :
  payments (settle st id invoice) = payments st.
Proof. unfold settle. by destruct (Payment_sum_reaches _ _ _). Qed.

Lemma Payment_sum_reaches_ext (st st' : Store) (id : string) (due : Z) :
  payments st = payments st' →
  Payment_sum_reaches st id due = Payment_sum_reaches st' id due.
Proof. unfold Payment_sum_reaches, Payment_completed. by intros ->. Qed.

Lemma Payment_findOne_ext (st st' : Store) (cid : string) :
  payments st = payments st' → Payment_findOne st cid = Payment_findOne st' cid.
Proof. unfold Payment_findOne. by intros ->. Qed.

Lemma settle_lookup (st : Store) (id : string) (invoice : Invoice.t) :
  invoices st !! id = Some invoice →
  ∃ invoice', invoices (settle st id invoice) !! id = Some invoice'
    ∧ Invoice.amount invoice' = Invoice.amount invoice
    ∧ Invoice.status invoice' =
        (if Payment_sum_reaches st id (Invoice.amount invoice)
         then InvoiceStatus.paid else Invoice.status invoice).
Proof.
  intros Hid. unfold settle. destruct (Payment_sum_reaches _ _ _).
  - eexists. simpl. by rewrite lookup_insert_eq.
  - by exists invoice.
Qed.

(** Settling again, with the row that the first settling left, changes
    nothing. *)
Lemma settle_idempotent (st : Store) (id : string) (invoice invoice' : Invoice.t) :
  invoices st !! id = Some invoice →
  invoices (settle st id invoice) !! id = Some invoice' →
  settle (settle st id invoice) id invoice' = settle st id invoice.
Proof.
  intros Hid Hid'.
  destruct (settle_lookup st id invoice Hid) as (invoice'' & Hl & Hamount & _).
  assert (invoice'' = invoice') as -> by congruence.
  unfold settle at 1.
  rewrite (Payment_sum_reaches_ext _ st) by apply settle_payments.
  rewrite Hamount. unfold settle in *.
  destruct (Payment_sum_reaches st id (Invoice.amount invoice)); [|done].
  unfold Invoice_update_status in *. simpl in *.
  rewrite lookup_insert_eq in Hid'. injection Hid' as <-.
  by rewrite insert_insert_eq.
Qed.

Lemma Payment_update_noop (st : Store) (i : nat) (p : Payment.t)
    (values : list Payment.assignment) :
  payments st !! i = Some (Payment.updated p values) →
  Payment_update st i p values = st.
Proof.
  intros Hi. destruct st as [rows invs]. unfold Payment_update. simpl in *.
  by rewrite list_insert_id.
Qed.

Lemma Payment_update_lookup (st : Store) (cid : string) (i : nat) (p : Payment.t)
    (values : list Payment.assignment) :
  Payment_findOne st cid = Some (i, p) →
  payments (Payment_update st i p values) !! i = Some (Payment.updated p values).
Proof.
  intros Hfind%findOne_lookup. simpl.
  apply list_lookup_insert_eq. by eapply lookup_lt_Some.
Qed.

Lemma handleCallback_idempotent (st : Store) (body : callbackData) :
  handleCallback (fst (handleCallback st body)) body = handleCallback st body.
Proof.
  destruct body as [callback|]; [|done].
  destruct (Payment_findOne st (StkCallback.CheckoutRequestID callback))
    as [[i p]|] eqn:Hfind.
  2: { rewrite (handleCallback_unmatched _ _ Hfind). simpl.
       by apply handleCallback_unmatched. }
  destruct (strict_eq (StkCallback.ResultCode callback) (JNum 0)) eqn:Hcode.
  - rewrite (handleCallback_completed _ _ _ _ Hfind Hcode). cbv zeta.
    set (values := completed_by_callback callback).
    set (st1 := Payment_update st i p values).
    assert (Hrow : payments st1 !! i = Some (Payment.updated p values))
      by by eapply Payment_update_lookup.
    assert (Hfind1 : Payment_findOne st1 (StkCallback.CheckoutRequestID callback)
                     = Some (i, Payment.updated p values))
      by by apply (findOne_after_update st _ i p).
    destruct (invoices st !! Payment.invoice_id p) as [invoice|] eqn:Hinv; cbn [fst].
    + destruct (settle_lookup st1 _ _ Hinv) as (invoice' & Hinv' & _).
      rewrite (handleCallback_completed _ _ i (Payment.updated p values));
        [| by rewrite (Payment_findOne_ext _ st1) by apply settle_payments
         | done ].
      cbv zeta. fold values.
      change (Payment.invoice_id (Payment.updated p values))
        with (Payment.invoice_id p).
      rewrite Hinv', Payment_update_noop
        by (rewrite settle_payments; exact Hrow).
      by rewrite settle_idempotent.
    + rewrite (handleCallback_completed _ _ _ _ Hfind1 Hcode). cbv zeta.
      fold values.
      change (Payment.invoice_id (Payment.updated p values))
        with (Payment.invoice_id p).
      change (invoices st1) with (invoices st). rewrite Hinv.
      by rewrite Payment_update_noop by exact Hrow.
  - rewrite (handleCallback_failed _ _ _ _ Hfind Hcode). cbn [fst].
    set (values := failed_by_callback callback).
    rewrite (handleCallback_failed _ _ i (Payment.updated p values));
      [| by apply (findOne_after_update st _ i p) | done ].
    fold values. rewrite Payment_update_noop; [done|].
    change (Payment.updated (Payment.updated p values) values)
      with (Payment.updated p values).
    by eapply Payment_update_lookup.
Qed.

(** ** The branches of the polling path *)

Lemma checkPaymentStatus_early (st : Store) (cid : string)
    (response : GatewayResult QueryResponse.t jsval) (i : nat) (p : Payment.t) :
  Payment_findOne st cid = Some (i, p) →
  Payment.status p = PaymentStatus.completed →
  checkPaymentStatus st cid response
  = (st, Json (mkStatusReply None PaymentStatus.completed (Some p))).
Proof.
  intros Hfind Hstatus. unfold checkPaymentStatus. rewrite Hfind.
  by rewrite decide_True.
Qed.

Lemma checkPaymentStatus_completed (st : Store) (cid : string)
    (data : QueryResponse.t) (i : nat) (p : Payment.t) :
  Payment_findOne st cid = Some (i, p) →
  Payment.status p ≠ PaymentStatus.completed →
  strict_eq (QueryResponse.ResultCode data) (JStr "0") = true →
  fst (checkPaymentStatus st cid (GwSuccess data))
  = let st1 := Payment_update st i p (completed_by_poll data) in
    match invoices st !! Payment.invoice_id p with
    | None => st1
    | Some invoice => settle st1 (Payment.invoice_id p) invoice
    end.
Proof.
  intros Hfind Hstatus Hcode. unfold checkPaymentStatus. rewrite Hfind.
  rewrite decide_False by done. rewrite Hcode. cbv zeta.
  by destruct (invoices st !! _).
Qed.

Lemma checkPaymentStatus_failed (st : Store) (cid : string)
    (data : QueryResponse.t) (i : nat) (p : Payment.t) :
  Payment_findOne st cid = Some (i, p) →
  Payment.status p ≠ PaymentStatus.completed →
  strict_eq (QueryResponse.ResultCode data) (JStr "0") = false →
  strict_eq (QueryResponse.ResultCode data) (JStr "1032") = false →
  fst (checkPaymentStatus st cid (GwSuccess data))
  = Payment_update st i p (failed_by_poll data).
Proof.
  intros Hfind Hstatus Hcode Hcode'. unfold checkPaymentStatus. rewrite Hfind.
  rewrite decide_False by done. by rewrite Hcode, Hcode'.
Qed.

Lemma checkPaymentStatus_transient (st : Store) (cid : string)
    (data : QueryResponse.t) :
  strict_eq (QueryResponse.ResultCode data) (JStr "1032") = true →
  fst (checkPaymentStatus st cid (GwSuccess data)) = st.
Proof.
  intros Hcode. unfold checkPaymentStatus.
  destruct (Payment_findOne st cid) as [[i p]|]; [|done].
  case_decide; [done|].
  apply strict_eq_JStr in Hcode. rewrite Hcode. done.
Qed.

(** What a poll can do to the payment table: nothing, or one of its two
    updates of the matched row. *)
Lemma checkPaymentStatus_payments (st : Store) (cid : string)
    (response : GatewayResult QueryResponse.t jsval) :
  payments (fst (checkPaymentStatus st cid response)) = payments st
  ∨ ∃ i p data, payments st !! i = Some p ∧
      (payments (fst (checkPaymentStatus st cid response))
         = <[i := Payment.updated p (completed_by_poll data)]> (payments st)
       ∨ payments (fst (checkPaymentStatus st cid response))
         = <[i := Payment.updated p (failed_by_poll data)]> (payments st)).
Proof.
  destruct (Payment_findOne st cid) as [[i p]|] eqn:Hfind.
  2: { left. unfold checkPaymentStatus. by rewrite Hfind. }
  destruct (decide (Payment.status p = PaymentStatus.completed)) as [Hs|Hs].
  { left. by rewrite (checkPaymentStatus_early _ _ _ _ _ Hfind Hs). }
  destruct response as [data|e].
  2: { left. unfold checkPaymentStatus. rewrite Hfind. by rewrite decide_False. }
  pose proof (findOne_lookup _ _ _ _ Hfind) as Hi.
  destruct (strict_eq (QueryResponse.ResultCode data) (JStr "0")) eqn:Hcode.
  - right. exists i, p, data. split; [done|]. left.
    rewrite (checkPaymentStatus_completed _ _ _ _ _ Hfind Hs Hcode). cbv zeta.
    destruct (invoices st !! _); [by rewrite settle_payments | done].
  - destruct (strict_eq (QueryResponse.ResultCode data) (JStr "1032")) eqn:Hcode'.
    + left. by rewrite checkPaymentStatus_transient.
    + right. exists i, p, data. split; [done|]. right.
      by rewrite (checkPaymentStatus_failed _ _ _ _ _ Hfind Hs Hcode Hcode').
Qed.

(** What a callback can do to the payment table. *)
Lemma handleCallback_payments (st : Store) (body : callbackData) :
  payments (fst (handleCallback st body)) = payments st
  ∨ ∃ i p callback, body = Some callback ∧ payments st !! i = Some p ∧
      ((strict_eq (StkCallback.ResultCode callback) (JNum 0) = true ∧
        payments (fst (handleCallback st body))
        = <[i := Payment.updated p (completed_by_callback callback)]> (payments st))
       ∨ (strict_eq (StkCallback.ResultCode callback) (JNum 0) = false ∧
          payments (fst (handleCallback st body))
          = <[i := Payment.updated p (failed_by_callback callback)]> (payments st))).
Proof.
  destruct body as [callback|]; [|by left].
  destruct (Payment_findOne st (StkCallback.CheckoutRequestID callback))
    as [[i p]|] eqn:Hfind.
  2: { left. by rewrite handleCallback_unmatched. }
  pose proof (findOne_lookup _ _ _ _ Hfind) as Hi.
  destruct (strict_eq (StkCallback.ResultCode callback) (JNum 0)) eqn:Hcode.
  - right. exists i, p, callback. split_and!; [done..|]. left.
    split; [done|].
    rewrite (handleCallback_completed _ _ _ _ Hfind Hcode). cbv zeta.
    destruct (invoices st !! _); [by cbn [fst]; rewrite settle_payments | done].
  - right. exists i, p, callback. split_and!; [done..|]. right. split; [done|].
    by rewrite (handleCallback_failed _ _ _ _ Hfind Hcode).
Qed.

End transitions.
(** * The claims *)

(** ** C1: attempts in a terminal state *)

(** C1, as stated, fails.  The attempt [pay-1], completed by a success
    callback, becomes [failed] when a callback with result code 1 arrives
    for the same checkout reference; and the same attempt, once [failed],
    becomes [completed] when a poll reports result code ["0"]. *)
Lemma terminal_attempt_is_overwritten :
  Payment.status <$> payments store_completed = [PaymentStatus.completed]
  ∧ Payment.status <$>
      payments (fst (handleCallback store_completed (Some (callback_ws_1 1 None))))
    = [PaymentStatus.failed]
  ∧ Payment.status <$> payments store_failed = [PaymentStatus.failed]
  ∧ Payment.status <$>
      payments (fst (checkPaymentStatus store_failed "ws_1" (query_result "0")))
    = [PaymentStatus.completed].
Proof. repeat split; vm_compute; reflexivity. Qed.

(** C1 (amended): once an attempt is [completed], a poll for its checkout
    reference answers success with status [completed] and leaves the
    store as it is, whatever the provider would report; so does any
    sequence of such polls. *)
Theorem poll_of_completed_attempt_is_noop `{!Arithmetic} (st : Store) (cid : string)
    (i : nat) (p : Payment.t) :
  Payment_findOne st cid = Some (i, p) →
  Payment.status p = PaymentStatus.completed →
  (∀ response,
     checkPaymentStatus st cid response
     = (st, Json (mkStatusReply None PaymentStatus.completed (Some p))))
  ∧ (∀ responses,
       fold_left (λ s response, fst (checkPaymentStatus s cid response)) responses st
       = st).
Proof.
  intros Hfind Hstatus.
  assert (Hone : ∀ response,
    checkPaymentStatus st cid response
    = (st, Json (mkStatusReply None PaymentStatus.completed (Some p))))
    by (intros; by apply (checkPaymentStatus_early _ _ _ i)).
  split; [done|].
  induction responses as [|response responses IH]; [done|].
  simpl. by rewrite Hone.
Qed.

Lemma poll_of_completed_attempt_is_noop_witness :
  fst (checkPaymentStatus store_completed "ws_1" (query_result "1")) = store_completed.
Proof.
  destruct (poll_of_completed_attempt_is_noop store_completed "ws_1" 0
              (Payment.updated
                 (Payment.updated
                    (Payment.created "pay-1" (JNum 500) "254712345678"
                       PaymentStatus.pending "inv-1" "user-1")
                    [Payment.set_checkout_request_id "ws_1";
                     Payment.set_merchant_request_id "mr_1"])
                 (completed_by_callback (callback_ws_1 0 paid_in_full))))
    as [H _]; [vm_compute; reflexivity | reflexivity |].
  rewrite H. reflexivity.
Defined.

(** ** C2: the callback path and the polling path *)

(** C2, as stated, fails: the two paths are two transitions.  For the
    pending attempt [pay-1] of amount 500 and a success result, the
    callback path writes the amount that the callback carries, here 300,
    and then finds the invoice of 500 not covered; the polling path has no
    amount to write, keeps 500, and marks the invoice paid. *)
Lemma callback_and_poll_diverge :
  let callback := callback_ws_1 0 (Some [Item.mk "Amount" (JNum 300)]) in
  let by_callback := fst (handleCallback store_pending (Some callback)) in
  let by_poll := fst (checkPaymentStatus store_pending "ws_1" (query_result "0")) in
  Payment.amount <$> payments store_pending = [JNum 500]
  ∧ (Payment.status <$> payments by_callback = [PaymentStatus.completed]
     ∧ Payment.amount <$> payments by_callback = [JNum 300]
     ∧ Invoice.status <$> invoices by_callback !! "inv-1" = Some InvoiceStatus.draft)
  ∧ (Payment.status <$> payments by_poll = [PaymentStatus.completed]
     ∧ Payment.amount <$> payments by_poll = [JNum 500]
     ∧ Invoice.status <$> invoices by_poll !! "inv-1" = Some InvoiceStatus.paid)
  ∧ payments by_callback ≠ payments by_poll.
Proof. cbv zeta. split_and!; by vm_compute. Qed.

(** C2 (amended): for an attempt that is not completed and a result code
    [n] other than 1032, which the callback carries as the number [n] and
    the query response as the string of [n], the callback path and the
    polling path store the same status in every row: the matched attempt
    becomes [completed] when [n] is 0 and [failed] otherwise.  When [n] is
    not 0, both paths leave the invoices as they are. *)
Theorem callback_and_poll_store_the_same_status `{!Arithmetic} (st : Store)
    (cid : string) (n : Z) (desc : jsval) (items : option (list Item.t))
    (data : QueryResponse.t) (i : nat) (p : Payment.t) :
  Payment_findOne st cid = Some (i, p) →
  Payment.status p ≠ PaymentStatus.completed →
  n ≠ 1032 →
  QueryResponse.ResultCode data = JStr (js_string_of_Z n) →
  let stored := if Z.eqb n 0 then PaymentStatus.completed else PaymentStatus.failed in
  let by_callback :=
    fst (handleCallback st (Some (StkCallback.mk cid (JNum n) desc items))) in
  let by_poll := fst (checkPaymentStatus st cid (GwSuccess data)) in
  Payment.status <$> payments by_callback = Payment.status <$> payments by_poll
  ∧ Payment.status <$> payments by_poll
    = <[i := stored]> (Payment.status <$> payments st)
  ∧ (n ≠ 0 → invoices by_callback = invoices st ∧ invoices by_poll = invoices st).
Proof.
  intros Hfind Hstatus H1032 Hdata. cbv zeta.
  set (callback := StkCallback.mk cid (JNum n) desc items) in *.
  assert (Hpoll0 : strict_eq (QueryResponse.ResultCode data) (JStr "0") = Z.eqb n 0)
    by (rewrite Hdata; apply (strict_eq_rendered n 0)).
  assert (Hpoll1032 : strict_eq (QueryResponse.ResultCode data) (JStr "1032") = false).
  { rewrite Hdata. change "1032" with (js_string_of_Z 1032).
    rewrite strict_eq_rendered. by apply Z.eqb_neq. }
  destruct (Z.eqb_spec n 0) as [Hn|Hn].
  - assert (Hcb : strict_eq (StkCallback.ResultCode callback) (JNum 0) = true)
      by (by subst n).
    rewrite (handleCallback_completed st callback i p Hfind Hcb).
    rewrite (checkPaymentStatus_completed _ _ _ _ _ Hfind Hstatus Hpoll0).
    cbv zeta. split_and!; [| |done].
    + destruct (invoices st !! _); cbn [fst];
        rewrite ?settle_payments; simpl; by rewrite !list_fmap_insert.
    + destruct (invoices st !! _);
        rewrite ?settle_payments; simpl; by rewrite !list_fmap_insert.
  - assert (Hcb : strict_eq (StkCallback.ResultCode callback) (JNum 0) = false)
      by (by apply Z.eqb_neq).
    rewrite (handleCallback_failed st callback i p Hfind Hcb).
    rewrite (checkPaymentStatus_failed _ _ _ _ _ Hfind Hstatus Hpoll0 Hpoll1032).
    simpl. by rewrite !list_fmap_insert.
Qed.

Lemma callback_and_poll_store_the_same_status_witness :
  Payment.status <$>
    payments (fst (handleCallback store_pending (Some (callback_ws_1 1 None))))
  = Payment.status <$>
      payments (fst (checkPaymentStatus store_pending "ws_1" (query_result "1"))).
Proof.
  refine (proj1 (callback_and_poll_store_the_same_status store_pending "ws_1" 1
                   (JStr "result") None
                   (QueryResponse.mk (JStr "1") (JStr "result") JUndef JUndef) 0
                   (Payment.updated
                      (Payment.created "pay-1" (JNum 500) "254712345678"
                         PaymentStatus.pending "inv-1" "user-1")
                      [Payment.set_checkout_request_id "ws_1";
                       Payment.set_merchant_request_id "mr_1"])
                   _ _ _ _)).
  - vm_compute. reflexivity.
  - simpl. discriminate.
  - lia.
  - reflexivity.
Defined.

(** ** C3: the transient result code 1032 *)

(** C3 at its failing input: a callback with result code 1032 for the
    pending attempt [pay-1] is answered with success and stores the state
    [failed]; only the polling path leaves the attempt as it is. *)
Theorem callback_with_code_1032_marks_failed :
  Payment.status <$> payments store_pending = [PaymentStatus.pending]
  ∧ snd (handleCallback store_pending (Some (callback_ws_1 1032 None)))
    = mkHandlerResult true None
  ∧ Payment.status <$>
      payments (fst (handleCallback store_pending (Some (callback_ws_1 1032 None))))
    = [PaymentStatus.failed]
  ∧ fst (checkPaymentStatus store_pending "ws_1" (query_result "1032"))
    = store_pending.
Proof.
  split_and!; [by vm_compute..|].
  by apply checkPaymentStatus_transient.
Qed.

(** ** C4: the amount of a payment *)

(** C4, as stated, fails.  The attempt [pay-1] is created with amount 500;
    a success callback whose metadata carries [Amount] 300 stores 300, and a
    success callback without metadata stores 0. *)
Lemma success_callback_overwrites_amount :
  Payment.amount <$> payments store_pending = [JNum 500]
  ∧ Payment.amount <$>
      payments (fst (handleCallback store_pending
                       (Some (callback_ws_1 0 (Some [Item.mk "Amount" (JNum 300)])))))
    = [JNum 300]
  ∧ Payment.amount <$>
      payments (fst (handleCallback store_pending (Some (callback_ws_1 0 None))))
    = [JNum 0].
Proof. split_and!; by vm_compute. Qed.

(** C4 (amended): the polling path never changes the amount of a payment,
    and a callback whose result code is not 0 does not either.  A success
    callback writes the value of the [Amount] item of its metadata,
    whatever it is, to the amount of the matched payment (0 when there is
    no such item or its value is falsy), and leaves the amounts of the
    other payments.  Neither path writes the identity, the references,
    the invoice or the user of a payment. *)
Theorem amount_is_written_by_success_callback_only `{!Arithmetic} :
  (∀ st cid response,
     Payment.amount <$> payments (fst (checkPaymentStatus st cid response))
     = Payment.amount <$> payments st)
  ∧ (∀ st callback,
       strict_eq (StkCallback.ResultCode callback) (JNum 0) = false →
       Payment.amount <$> payments (fst (handleCallback st (Some callback)))
       = Payment.amount <$> payments st)
  ∧ (∀ st callback i p,
       Payment_findOne st (StkCallback.CheckoutRequestID callback) = Some (i, p) →
       StkCallback.ResultCode callback = JNum 0 →
       Payment.amount <$> payments (fst (handleCallback st (Some callback)))
       = <[i := js_or (find_Value "Amount"
                         (default [] (StkCallback.CallbackMetadata callback)))
                      (JNum 0)]>
           (Payment.amount <$> payments st))
  ∧ (∀ st cid response,
       identity_columns <$> payments (fst (checkPaymentStatus st cid response))
       = identity_columns <$> payments st)
  ∧ (∀ st body,
       identity_columns <$> payments (fst (handleCallback st body))
       = identity_columns <$> payments st).
Proof.
  split_and!.
  - intros st cid response.
    destruct (checkPaymentStatus_payments st cid response)
      as [->|(i & p & data & Hi & [-> | ->])]; [done|..];
      by apply (fmap_insert_same _ _ _ p).
  - intros st callback Hcode.
    destruct (handleCallback_payments st (Some callback))
      as [->|(i & p & c & [= <-] & Hi & [[Hcode' _] | [_ ->]])];
      [done | congruence | by apply (fmap_insert_same _ _ _ p)].
  - intros st callback i p Hfind Hcode.
    rewrite (handleCallback_completed st callback i p Hfind); [|by rewrite Hcode].
    cbv zeta. destruct (invoices st !! _); cbn [fst];
      rewrite ?settle_payments; simpl; by rewrite list_fmap_insert.
  - intros st cid response.
    destruct (checkPaymentStatus_payments st cid response)
      as [->|(i & p & data & Hi & [-> | ->])]; [done|..];
      by apply (fmap_insert_same _ _ _ p).
  - intros st body.
    destruct (handleCallback_payments st body)
      as [->|(i & p & c & _ & Hi & [[_ ->] | [_ ->]])]; [done|..];
      by apply (fmap_insert_same _ _ _ p).
Qed.

Lemma amount_is_written_by_success_callback_only_witness :
  Payment.amount <$>
    payments (fst (handleCallback store_pending
                     (Some (callback_ws_1 0 (Some [Item.mk "Amount" (JStr "abc")])))))
  = [JStr "abc"].
Proof.
  apply (proj1 (proj2 (proj2 amount_is_written_by_success_callback_only))
           store_pending (callback_ws_1 0 (Some [Item.mk "Amount" (JStr "abc")])) 0%nat
           (Payment.updated
              (Payment.created "pay-1" (JNum 500) "254712345678"
                 PaymentStatus.pending "inv-1" "user-1")
              [Payment.set_checkout_request_id "ws_1";
               Payment.set_merchant_request_id "mr_1"])).
  - vm_compute. reflexivity.
  - reflexivity.
Defined.

(** ** C5: the paid status of an invoice *)






(** ** C6: phone formatting *)

(** C6 at its failing input.  [initiatePayment] formats the two numbers
    without a plus sign as claimed, and [initiateSTKPush] on its own strips
    the plus sign; but [initiatePayment] puts the prefix in front of
    ["+254712345678"], and [initiateSTKPush] then finds no leading plus sign
    to strip: the number stored and sent is ["254+254712345678"]. *)
Theorem phone_formatting_on_initiate :
  push_request_phone "0712345678" = "254712345678"
  ∧ push_request_phone "254712345678" = "254712345678"
  ∧ initiateSTKPush_formattedPhone "+254712345678" = "254712345678"
  ∧ initiatePayment_formattedPhone "+254712345678" = "254+254712345678"
  ∧ push_request_phone "+254712345678" = "254+254712345678"
  ∧ Payment.phone_number <$>
      payments (fst (initiatePayment store_with_invoice "user-1" "inv-1"
                       "+254712345678" "pay-1" push_accepted))
    = [JStr "254+254712345678"].
Proof. split_and!; by vm_compute. Qed.

(** ** C7: the status codes of initiation *)

(** C7, as stated, fails: initiation for an invoice that is already paid is
    answered with status 400, not 409. *)
Lemma paid_invoice_is_rejected_with_400 :
  Invoice.status <$> invoices store_paid !! "inv-1" = Some InvoiceStatus.paid
  ∧ http_status
      (snd (initiatePayment store_paid "user-1" "inv-1" "0712345678" "pay-1"
              push_accepted))
    = 400
  ∧ http_status
      (snd (initiatePayment store_paid "user-1" "inv-1" "0712345678" "pay-1"
              push_accepted))
    ≠ 409.
Proof. split_and!; by vm_compute. Qed.

(** C7 (amended): [POST /payments/initiate] is answered with status 404
    when the user has no invoice of that id, with status 400 when the
    invoice is already paid (the store is left as it is), and with
    status 400 when the provider rejects the push. *)
Theorem initiatePayment_error_statuses (st : Store)
    (userId invoiceId phoneNumber new_id : string)
    (response : GatewayResult PushResponse.t PushError.t) :
  (Invoice_findOne st invoiceId userId = None →
   http_status (snd (initiatePayment st userId invoiceId phoneNumber new_id response))
   = 404)
  ∧ (∀ invoice,
       Invoice_findOne st invoiceId userId = Some invoice →
       Invoice.status invoice = InvoiceStatus.paid →
       initiatePayment st userId invoiceId phoneNumber new_id response
       = (st, Next (BadRequestError "This invoice has already been paid"))
       ∧ http_status
           (snd (initiatePayment st userId invoiceId phoneNumber new_id response))
         = 400)
  ∧ (∀ invoice error,
       Invoice_findOne st invoiceId userId = Some invoice →
       Invoice.status invoice ≠ InvoiceStatus.paid →
       response = GwFailure error →
       http_status
         (snd (initiatePayment st userId invoiceId phoneNumber new_id response))
       = 400).
Proof.
  unfold initiatePayment. split_and!.
  - by intros ->.
  - intros invoice -> Hpaid. by rewrite decide_True.
  - intros invoice error -> Hpaid ->. by rewrite decide_False.
Qed.

Lemma initiatePayment_error_statuses_witness :
  http_status
    (snd (initiatePayment store_paid "user-1" "inv-1" "0712345678" "pay-1"
            push_accepted))
  = 400.
Proof.
  apply (proj1 (proj2 (initiatePayment_error_statuses store_paid "user-1" "inv-1"
                         "0712345678" "pay-1" push_accepted))
           (Invoice.set_status invoice_500 InvoiceStatus.paid)).
  - vm_compute. reflexivity.
  - reflexivity.
Defined.

(** ** C8: a push that the gateway fails to deliver *)




(** ** C9: the same success callback twice *)

(** C9: handling a success callback a second time, on the store that the
    first handling left, returns the same result and leaves that store,
    payments and invoices, as it is. *)
Theorem success_callback_twice `{!Arithmetic} (st : Store) (callback : StkCallback.t) :
  StkCallback.ResultCode callback = JNum 0 →
  handleCallback (fst (handleCallback st (Some callback))) (Some callback)
  = handleCallback st (Some callback)
  ∧ fst (mpesaCallback (fst (mpesaCallback st (Some callback))) (Some callback))
    = fst (mpesaCallback st (Some callback)).
Proof.
  intros _. split; [apply handleCallback_idempotent|].
  unfold mpesaCallback, mpesaCallback_over, handleCallback_awaited.
  pose proof (handleCallback_idempotent st (Some callback)) as Hidem.
  destruct (handleCallback st (Some callback)) as [st1 r1]. cbn [fst] in *.
  by rewrite Hidem.
Qed.

Lemma success_callback_twice_witness :
  handleCallback store_completed (Some (callback_ws_1 0 paid_in_full))
  = (store_completed, mkHandlerResult true None).
Proof.
  pose proof (success_callback_twice store_pending (callback_ws_1 0 paid_in_full)
                eq_refl) as [H _].
  etransitivity; [exact H|]. vm_compute. reflexivity.
Defined.

(** ** C10: the answer of the callback endpoint *)

(** C10: the callback endpoint answers status 200 with [ResultCode] 0 to
    every body.  When no payment has the [CheckoutRequestID] of the
    callback, the service returns its failure value, the store is left as
    it is and the answer is the same.  Over any implementation of the
    service, the endpoint answers [ResultCode] 1 exactly when the call of
    the service throws. *)
Theorem mpesaCallback_always_acknowledges `{!Arithmetic} :
  (∀ st body,
     snd (mpesaCallback st body)
     = mkCallbackResponse 200 0 "Callback processed successfully")
  ∧ (∀ st callback,
       Payment_findOne st (StkCallback.CheckoutRequestID callback) = None →
       handleCallback st (Some callback)
       = (st, mkHandlerResult false (Some "Payment not found"))
       ∧ mpesaCallback st (Some callback)
         = (st, mkCallbackResponse 200 0 "Callback processed successfully"))
  ∧ (∀ (S : Type) (service : S → callbackData → S * Completion HandlerResult)
       (st : S) (body : callbackData),
       statusCode (snd (mpesaCallback_over service st body)) = 200
       ∧ (ResultCode (snd (mpesaCallback_over service st body)) = 1
          ↔ ∃ e, snd (service st body) = Thrown e)).
Proof.
  split_and!.
  - intros st body. unfold mpesaCallback, mpesaCallback_over, handleCallback_awaited.
    by destruct (handleCallback st body).
  - intros st callback Hfind. split; [by apply handleCallback_unmatched|].
    unfold mpesaCallback, mpesaCallback_over, handleCallback_awaited.
    by rewrite handleCallback_unmatched.
  - intros S service st body. unfold mpesaCallback_over.
    destruct (service st body) as [st' [r|e]]; simpl.
    + split; [done|]. split; [done|]. by intros [e ?].
    + split; [done|]. split; [by exists e | done].
Qed.

Lemma mpesaCallback_always_acknowledges_witness :
  mpesaCallback store_pending (Some (StkCallback.mk "ws_2" (JNum 0) (JStr "result") None))
  = (store_pending, mkCallbackResponse 200 0 "Callback processed successfully").
Proof.
  apply (proj1 (proj2 mpesaCallback_always_acknowledges)).
  vm_compute. reflexivity.
Defined.
